(** * trimshare: the output-name resolver [infer_out_video_name]

    A shallow embedding of [src/trimshare/trimshare.py], lines 41-79, and of
    the guard of [main] that precedes its only call (lines 86-92), followed
    by the properties of the naming policy.

    Python [str] values are modelled as [string] (sequences of bytes).  The
    only characters the resolver inspects are ASCII, and no UTF-8 multi-byte
    sequence contains an ASCII byte, so splitting at ["."] on bytes and on
    code points agree. *)

From Stdlib Require Import List Arith ZArith Lia Bool Eqdep_dec.
From Stdlib Require Import Strings.String Strings.Ascii.
From Stdlib Require Import Numbers.DecimalString Numbers.DecimalNat.
Import ListNotations.

Set Warnings "-abstract-large-number".

Local Open Scope list_scope.
Local Open Scope string_scope.

(** ** Python string operations used by the resolver *)

Module PyStr.

(** [c in s] for a one-character needle. *)
Fixpoint contains (c : ascii) (s : string) : bool :=
  match s with
  | EmptyString => false
  | String a s' => if Ascii.eqb a c then true else contains c s'
  end.

(** [s.split(sep)] for a one-character separator: the maximal pieces between
    the occurrences of [sep]; never the empty list. *)
Fixpoint split (sep : ascii) (s : string) : list string :=
  match s with
  | EmptyString => [EmptyString]
  | String a s' =>
      if Ascii.eqb a sep then EmptyString :: split sep s'
      else match split sep s' with
           | piece :: rest => String a piece :: rest
           | [] => [String a EmptyString]
           end
  end.

(** [sep.join(pieces)]. *)
Definition join (sep : string) (pieces : list string) : string :=
  String.concat sep pieces.

(** [l[:-1]]: every element but the last (the empty list stays empty). *)
Definition all_but_last {A : Type} (l : list A) : list A := removelast l.

(** [s.rfind(c)]: the index of the last occurrence, when there is one. *)
Fixpoint rindex (c : ascii) (s : string) : option nat :=
  match s with
  | EmptyString => None
  | String a s' =>
      match rindex c s' with
      | Some i => Some (S i)
      | None => if Ascii.eqb a c then Some 0 else None
      end
  end.

(** [str(n)] for a natural number: its decimal numeral. *)
Definition str_of_nat (n : nat) : string :=
  NilEmpty.string_of_uint (Nat.to_uint n).

(** [s.zfill(width)] on a numeral without sign: zeros on the left up to
    [width] characters, nothing cut when the numeral is longer. *)
Definition zfill (width : nat) (s : string) : string :=
  String.concat "" (repeat "0" (width - String.length s)) ++ s.

End PyStr.

(** ** The stem of the input name *)

(** Lines 64-65 of the source:
<<
    if "." in inname:
        inname = ".".join(inname.split(".")[:-1])
>>
*)
Definition strip_extension (inname : string) : string :=
  if PyStr.contains "." inname
  then PyStr.join "." (PyStr.all_but_last (PyStr.split "." inname))
  else inname.

(** The base name as the specification words it: locate the last ["."]; when
    there is one take everything before it, otherwise keep the whole name. *)
Definition base_name (inname : string) : string :=
  match PyStr.rindex "." inname with
  | Some i => String.substring 0 i inname
  | None => inname
  end.


(** ** The clock: [datetime.now()] and [strftime] *)

Module Datetime.

(** The fields of a [datetime.datetime] that the format string reads. *)
Record fields : Type := mk_fields {
  year : nat;
  month : nat;
  day : nat;
  hour : nat;
  minute : nat;
  second : nat
}.

Definition MINYEAR : nat := 1.
Definition MAXYEAR : nat := 9999.

Definition is_leap (y : nat) : bool :=
  ((y mod 4 =? 0) && (negb (y mod 100 =? 0) || (y mod 400 =? 0)))%nat.

Definition days_in_month (y m : nat) : nat :=
  match m with
  | 2 => if is_leap y then 29 else 28
  | 4 | 6 | 9 | 11 => 30
  | _ => 31
  end.

(** The range checks of the [datetime] constructor. *)
Definition valid (dt : fields) : bool :=
  ((MINYEAR <=? year dt) && (year dt <=? MAXYEAR) &&
   (1 <=? month dt) && (month dt <=? 12) &&
   (1 <=? day dt) && (day dt <=? days_in_month (year dt) (month dt)) &&
   (hour dt <? 24) && (minute dt <? 60) && (second dt <? 60))%nat.

(** A [datetime.datetime] object: fields that passed the range checks.  No
    other value can be built, so none can be read from the clock. *)
Record datetime : Type := mk_datetime {
  parts :> fields;
  in_range : valid parts = true
}.

(** One conversion directive.  [%m], [%d], [%H], [%M] and [%S] are
    two-digit, zero-padded decimal numbers.  [%Y] is the year as the C
    library prints it for CPython (before 3.13, on glibc): its decimal
    numeral without padding, so a year below 1000 takes fewer than four
    characters.  A directive the resolver never uses is left in place. *)
Definition directive (d : ascii) (dt : datetime) : string :=
  if Ascii.eqb d "Y" then PyStr.str_of_nat (year dt)
  else if Ascii.eqb d "m" then PyStr.zfill 2 (PyStr.str_of_nat (month dt))
  else if Ascii.eqb d "d" then PyStr.zfill 2 (PyStr.str_of_nat (day dt))
  else if Ascii.eqb d "H" then PyStr.zfill 2 (PyStr.str_of_nat (hour dt))
  else if Ascii.eqb d "M" then PyStr.zfill 2 (PyStr.str_of_nat (minute dt))
  else if Ascii.eqb d "S" then PyStr.zfill 2 (PyStr.str_of_nat (second dt))
  else String "%" (String d EmptyString).

(** [dt.strftime(fmt)]: literal characters are copied, [%x] is replaced by
    the field it names. *)
Fixpoint strftime (fmt : string) (dt : datetime) : string :=
  match fmt with
  | EmptyString => EmptyString
  | String c rest =>
      if Ascii.eqb c "%" then
        match rest with
        | String d rest' => directive d dt ++ strftime rest' dt
        | EmptyString => String c EmptyString
        end
      else String c (strftime rest dt)
  end.

(** The layout [YYYY-MM-DD-HHMMSS] as the specification words it: a fixed
    number of decimal digits per field, most significant first. *)
Definition digit (n : nat) : ascii := ascii_of_nat (48 + n mod 10).

Definition two_digits (n : nat) : string :=
  String (digit (n / 10)) (String (digit n) EmptyString).

Definition four_digits (n : nat) : string :=
  String (digit (n / 1000)) (String (digit (n / 100)) (two_digits n)).

Definition YYYY_MM_DD_HHMMSS (dt : datetime) : string :=
  four_digits (year dt) ++ "-" ++ two_digits (month dt) ++ "-" ++
  two_digits (day dt) ++ "-" ++
  two_digits (hour dt) ++ two_digits (minute dt) ++ two_digits (second dt).

End Datetime.

(** ** The world the resolver runs in, and its effects *)

(** What a run can observe: which paths exist, and what the clock reads.
    [fs_exists] answers for the path string handed to [Path]. *)
Record World : Type := mk_world {
  fs_exists : string -> bool;
  clock : Datetime.datetime
}.

Inductive exn : Type :=
| FileExistsError (msg : string)   (* the specification's NameCollision *)
| NameError (msg : string)         (* the specification's NameGenerationExhausted *)
| SystemExit (msg : string).

Inductive outcome (A : Type) : Type :=
| Returned (a : A)
| Raised (e : exn).

Arguments Returned {A} a.
Arguments Raised {A} e.

(** A computation takes the world and gives an outcome and the world it
    leaves behind. *)
Definition M (A : Type) : Type := World -> outcome A * World.

Definition ret {A : Type} (a : A) : M A := fun w => (Returned a, w).

Definition raise {A : Type} (e : exn) : M A := fun w => (Raised e, w).

Definition bind {A B : Type} (m : M A) (k : A -> M B) : M B :=
  fun w =>
    match m w with
    | (Returned a, w') => k a w'
    | (Raised e, w') => (Raised e, w')
    end.

Notation "x <- m ;; k" := (bind m (fun x => k))
  (at level 61, m at next level, right associativity).

(** [Path(p).exists()], for a check that answers.  A check that itself
    raises [OSError] (a name too long, a directory that may not be
    searched) has no place in this model: every statement below that
    assumes an answer of the file system is about the runs where the check
    gave that answer. *)
Definition Path_exists (p : string) : M bool :=
  fun w => (Returned (fs_exists w p), w).

(** [Path(p).touch()], as the tests use it to prepare the file system. *)
Definition Path_touch (p : string) : M unit :=
  fun w => (Returned tt,
            {| fs_exists := fun q => String.eqb q p || fs_exists w q;
               clock := clock w |}).

(** [datetime.now()] *)
Definition datetime_now : M Datetime.datetime :=
  fun w => (Returned (clock w), w).

Definition result {A : Type} (r : outcome A * World) : outcome A := fst r.
Definition world_after {A : Type} (r : outcome A * World) : World := snd r.

(** ** The resolver (lines 41-79) *)

Definition infer_out_video_name (outname : option string) (inname : string)
  : M string :=
  match outname with
  | Some outname =>
      if String.eqb outname inname
      then raise (FileExistsError
                    "Output video must be different from the input video")
      else ret outname
  | None =>
      let inname := strip_extension inname in
      let conv_name := inname ++ ".webm" in
      conv_exists <- Path_exists conv_name ;;
      if (conv_exists : bool) then
        now <- datetime_now ;;
        let now := Datetime.strftime "%Y-%m-%d-%H%M%S" now in
        let safer_name := inname ++ "-trimshare-" ++ now ++ ".webm" in
        safer_exists <- Path_exists safer_name ;;
        if (safer_exists : bool) then
          raise (NameError
                   ("Could not automatically generate a safe file name for "
                    ++ inname))
        else ret safer_name
      else ret conv_name
  end.

(** The part of [main] that reaches the resolver (lines 86-92): the input
    must exist, then the output name is resolved. *)
Definition main_out_video (o : option string) (in_video : string) : M string :=
  in_exists <- Path_exists in_video ;;
  if negb in_exists then raise (SystemExit ("No file called " ++ in_video))
  else infer_out_video_name o in_video.

(** A world with no file at all and the tests' frozen clock,
    2001-01-01 01:01:01. *)
Definition frozen_clock : Datetime.datetime :=
  Datetime.mk_datetime (Datetime.mk_fields 2001 1 1 1 1 1) eq_refl.

(** A clock before the year 1000: 4 March 999, 05:06:07. *)
Definition clock_of_999 : Datetime.datetime :=
  Datetime.mk_datetime (Datetime.mk_fields 999 3 4 5 6 7) eq_refl.

Definition empty_world : World :=
  {| fs_exists := fun _ => false; clock := frozen_clock |}.

Definition touch_all (paths : list string) (w : World) : World :=
  fold_left (fun w p => world_after (Path_touch p w)) paths w.

(** ** The candidate names *)

(** [primary = base + ".webm"] *)
Definition primary_name (inname : string) : string :=
  base_name inname ++ ".webm".

(** [fallback = base + "-trimshare-" + timestamp + ".webm"], the timestamp
    being what [strftime] makes of the clock reading. *)
Definition fallback_name (inname : string) (now : Datetime.datetime) : string :=
  base_name inname ++ "-trimshare-"
  ++ Datetime.strftime "%Y-%m-%d-%H%M%S" now ++ ".webm".

(** The fallback name with the timestamp the specification asks for: the
    layout [YYYY-MM-DD-HHMMSS], every field zero-padded. *)
Definition padded_fallback_name (inname : string) (now : Datetime.datetime)
  : string :=
  base_name inname ++ "-trimshare-" ++ Datetime.YYYY_MM_DD_HHMMSS now ++ ".webm".

(** Two worlds that answer every existence query alike and whose clocks read
    the same. *)
Definition same_snapshot (w1 w2 : World) : Prop :=
  (forall p, fs_exists w1 p = fs_exists w2 p) /\
  Datetime.parts (clock w1) = Datetime.parts (clock w2).

(** Two worlds in which a run of the resolver on the same arguments is told
    the same: nothing at all with an explicit name; otherwise the answer for
    the primary name and, only when that name is taken, the clock reading
    and the answer for the fallback name.  Every other file, and the clock
    when the primary name is free, may differ. *)
Definition same_answers (outname : option string) (inname : string)
           (w1 w2 : World) : Prop :=
  match outname with
  | Some _ => True
  | None =>
      fs_exists w1 (primary_name inname) = fs_exists w2 (primary_name inname) /\
      (fs_exists w1 (primary_name inname) = true ->
       Datetime.parts (clock w1) = Datetime.parts (clock w2) /\
       fs_exists w1 (fallback_name inname (clock w1))
       = fs_exists w2 (fallback_name inname (clock w2)))
  end.

(** Whether padding the numeral of [n] to [width] gives [layout n]; checked
    over a whole range of [n] at once in the proofs below. *)
Definition padding_agrees (width : nat) (layout : nat -> string) (n : nat)
  : bool :=
  String.eqb (PyStr.zfill width (PyStr.str_of_nat n)) (layout n).

(** ** Reading a timestamp back *)

(** The value of a decimal digit character, and of two and four of them. *)
Definition digit_value (c : ascii) : nat := nat_of_ascii c - 48.

Definition value2 (a b : ascii) : nat := 10 * digit_value a + digit_value b.

Definition value4 (a b c d : ascii) : nat :=
  1000 * digit_value a + 100 * digit_value b + value2 c d.

(** The fields written in a string of the layout [YYYY-MM-DD-HHMMSS]; any
    other string has no reading. *)
Definition read_timestamp (s : string) : option Datetime.fields :=
  match s with
  | String y3 (String y2 (String y1 (String y0 (String _
    (String m1 (String m0 (String _
    (String d1 (String d0 (String _
    (String H1 (String H0 (String M1 (String M0
    (String S1 (String S0 EmptyString)))))))))))))))) =>
      Some (Datetime.mk_fields (value4 y3 y2 y1 y0) (value2 m1 m0)
              (value2 d1 d0) (value2 H1 H0) (value2 M1 M0) (value2 S1 S0))
  | _ => None
  end.

(** Whether every character of a string passes a test. *)
Fixpoint all_chars (ok : ascii -> bool) (s : string) : bool :=
  match s with
  | EmptyString => true
  | String c s' => ok c && all_chars ok s'
  end.

(** A decimal digit or a hyphen. *)
Definition is_stamp_char (c : ascii) : bool :=
  Ascii.eqb c "-" || ((48 <=? nat_of_ascii c)%nat && (nat_of_ascii c <=? 57)%nat).

(** ** The driver [main] (lines 82-149) *)

Module Cli.

(** The parsed command line, as [docopt] hands it to [main].  [quality] has
    a default in the usage text and is always present. *)
Record args : Type := mk_args {
  in_video : string;
  o : option string;
  starttime : option string;
  endtime : option string;
  quality : string;
  vresolution : option string
}.

End Cli.

(** [["-ss", start_time] if start_time is not None else []] *)
Definition start_time_arg (start_time : option string) : list string :=
  match start_time with
  | Some t => ["-ss"; t]
  | None => []
  end.

(** [["-to", end_time] if end_time is not None else []] *)
Definition end_time_arg (end_time : option string) : list string :=
  match end_time with
  | Some t => ["-to"; t]
  | None => []
  end.

(** [["-vf", f"scale=-1:{vresolution}"] if vresolution is not None else []] *)
Definition vresolution_arg (vresolution : option string) : list string :=
  match vresolution with
  | Some px => ["-vf"; "scale=-1:" ++ px]
  | None => []
  end.

(** The command line of the first encoding pass (lines 112-126). *)
Definition pass1 (a : Cli.args) : list string :=
  ["ffmpeg"; "-i"; Cli.in_video a]
  ++ start_time_arg (Cli.starttime a)
  ++ end_time_arg (Cli.endtime a)
  ++ ["-c:v"; "libvpx-vp9"; "-b:v"; "0"; "-crf"; Cli.quality a]
  ++ vresolution_arg (Cli.vresolution a)
  ++ ["-row-mt"; "1"; "-pass"; "1"; "-an"; "-f"; "null"; "/dev/null"].

(** The command line of the second encoding pass (lines 127-139). *)
Definition pass2 (a : Cli.args) (out_video : string) : list string :=
  ["ffmpeg"; "-i"; Cli.in_video a]
  ++ start_time_arg (Cli.starttime a)
  ++ end_time_arg (Cli.endtime a)
  ++ ["-c:v"; "libvpx-vp9"; "-b:v"; "0"; "-crf"; Cli.quality a]
  ++ vresolution_arg (Cli.vresolution a)
  ++ ["-row-mt"; "1"; "-pass"; "2"; out_video].

(** The machine [main] runs on: the world of the resolver and the commands
    launched so far, oldest first. *)
Record Host : Type := mk_host {
  host_world : World;
  launched : list (list string)
}.

Definition Proc (A : Type) : Type := Host -> outcome A * Host.

Definition ret_p {A : Type} (a : A) : Proc A := fun h => (Returned a, h).

Definition raise_p {A : Type} (e : exn) : Proc A := fun h => (Raised e, h).

Definition bind_p {A B : Type} (m : Proc A) (k : A -> Proc B) : Proc B :=
  fun h =>
    match m h with
    | (Returned a, h') => k a h'
    | (Raised e, h') => (Raised e, h')
    end.

Notation "x <-- m ;; k" := (bind_p m (fun x => k))
  (at level 61, m at next level, right associativity).

(** A computation on the world, run on the machine: nothing is launched. *)
Definition lift {A : Type} (m : M A) : Proc A :=
  fun h =>
    let (r, w') := m (host_world h) in
    (r, {| host_world := w'; launched := launched h |}).

Definition host_result {A : Type} (r : outcome A * Host) : outcome A := fst r.
Definition host_after {A : Type} (r : outcome A * Host) : Host := snd r.

Section Encoder.

(** The external encoder: what running a command does to the world, and the
    return code of the process.  The executable is taken to start. *)
Variable run_process : list string -> World -> Z * World.

(** [sp.run(cmd)], giving the [returncode] of the completed process. *)
Definition sp_run (cmd : list string) : Proc Z :=
  fun h =>
    let (returncode, w') := run_process cmd (host_world h) in
    (Returned returncode,
     {| host_world := w'; launched := launched h ++ [cmd] |}).

(** [main], from the parsed arguments on; the calls to [logging] are left
    out. *)
Definition main (a : Cli.args) : Proc unit :=
  out_video <-- lift (main_out_video (Cli.o a) (Cli.in_video a)) ;;
  firstpass <-- sp_run (pass1 a) ;;
  if negb (Z.eqb firstpass 0) then
    raise_p (SystemExit
      "The first encoding pass failed! Check ffmpeg's output for the reason why.")
  else
    _ <-- sp_run (pass2 a out_video) ;;
    ret_p tt.

End Encoder.

(** The message of [main] when the first pass fails (line 147). *)
Definition first_pass_failed : string :=
  "The first encoding pass failed! Check ffmpeg's output for the reason why.".

(** An encoder to run [main] on: every process ends with the return code
    [rc] and leaves a file at the last argument of its command. *)
Definition encoder_returning (rc : Z) (cmd : list string) (w : World)
  : Z * World :=
  (rc, world_after (Path_touch (last cmd EmptyString) w)).

(** The command line of the module's usage example,
    [trimshare example.mkv -s 0:23 -e 0:49], with an optional [-o]. *)
Definition example_args (o : option string) : Cli.args :=
  Cli.mk_args "example.mkv" o (Some "0:23") (Some "0:49") "50" None.

(** A machine on which nothing was launched yet. *)
Definition fresh_host (w : World) : Host :=
  {| host_world := w; launched := [] |}.

(** * Proofs *)

(** ** Splitting at a separator *)

Section SplitFacts.

Variable sep : ascii.

Lemma split_nonempty (s : string) : PyStr.split sep s <> [].
Proof.
  destruct s as [|a s']; simpl; [discriminate|].
  destruct (Ascii.eqb a sep); [discriminate|].
  destruct (PyStr.split sep s'); discriminate.
Qed.

Lemma contains_rindex (s : string) :
  PyStr.contains sep s = false <-> PyStr.rindex sep s = None.
Proof.
  induction s as [|a s' IH]; simpl; [tauto|].
  destruct (Ascii.eqb a sep).
  - destruct (PyStr.rindex sep s'); split; discriminate.
  - rewrite IH. destruct (PyStr.rindex sep s'); split; congruence.
Qed.

Lemma split_without_sep (s : string) :
  PyStr.rindex sep s = None -> PyStr.split sep s = [s].
Proof.
  induction s as [|a s' IH]; simpl; [reflexivity|].
  destruct (PyStr.rindex sep s') eqn:R; [discriminate|].
  destruct (Ascii.eqb a sep); [discriminate|].
  intros _. rewrite IH by reflexivity. reflexivity.
Qed.

(** With a separator present there are at least two pieces, and gluing all
    but the last one back together gives the prefix before the last
    separator. *)
Lemma split_with_sep (s : string) (i : nat) :
  PyStr.rindex sep s = Some i ->
  PyStr.all_but_last (PyStr.split sep s) <> [] /\
  PyStr.join (String sep EmptyString) (PyStr.all_but_last (PyStr.split sep s))
  = String.substring 0 i s.
Proof.
  unfold PyStr.all_but_last, PyStr.join.
  revert i. induction s as [|a s' IH]; simpl; intros i; [discriminate|].
  destruct (PyStr.rindex sep s') as [j|] eqn:R.
  - intros [= <-]. destruct (IH j eq_refl) as [NE EQ].
    destruct (Ascii.eqb_spec a sep) as [->|_].
    + destruct (PyStr.split sep s') as [|p [|q r]] eqn:SP;
        [contradiction|contradiction|].
      split; [discriminate|].
      change (removelast (p :: q :: r)) with (p :: removelast (q :: r)) in *.
      cbn [String.concat]. rewrite <- EQ.
      cbn [String.concat]. reflexivity.
    + destruct (PyStr.split sep s') as [|p [|q r]] eqn:SP;
        [contradiction|contradiction|].
      split; [discriminate|].
      change (removelast (p :: q :: r)) with (p :: removelast (q :: r)) in EQ.
      change (removelast (String a p :: q :: r))
        with (String a p :: removelast (q :: r)).
      rewrite <- EQ. cbn [String.concat].
      destruct (removelast (q :: r)); reflexivity.
  - destruct (Ascii.eqb_spec a sep) as [->|_]; [|discriminate].
    intros [= <-]. rewrite (split_without_sep s' R). simpl.
    split; [discriminate|reflexivity].
Qed.

End SplitFacts.

(** ** The stem: the source's split-and-join against the last-dot reading *)

Lemma strip_extension_base_name (inname : string) :
  strip_extension inname = base_name inname.
Proof.
  unfold strip_extension, base_name.
  destruct (PyStr.rindex "." inname) as [i|] eqn:R.
  - destruct (PyStr.contains "." inname) eqn:C.
    + exact (proj2 (split_with_sep "." inname i R)).
    + apply contains_rindex in C. congruence.
  - apply contains_rindex in R. now rewrite R.
Qed.

Lemma rindex_last_segment (c : ascii) (p e : string) :
  PyStr.contains c e = false ->
  PyStr.rindex c (p ++ String c e) = Some (String.length p).
Proof.
  intros E. apply contains_rindex in E.
  induction p as [|a p IH]; simpl.
  - rewrite E, Ascii.eqb_refl. reflexivity.
  - rewrite IH. reflexivity.
Qed.

Lemma substring_prefix (p rest : string) :
  String.substring 0 (String.length p) (p ++ rest) = p.
Proof.
  induction p as [|a p IH]; simpl.
  - destruct rest; reflexivity.
  - now rewrite IH.
Qed.

(** Only the final dot-separated segment is dropped: whatever stands before
    the last dot, earlier dots included, is kept as it is. *)
Lemma base_name_last_segment (p e : string) :
  PyStr.contains "." e = false ->
  base_name (p ++ "." ++ e) = p.
Proof.
  intros E. unfold base_name. simpl String.append.
  rewrite (rindex_last_segment "." p e E). apply substring_prefix.
Qed.

(** A name without a dot is its own base name. *)
Lemma base_name_no_dot (s : string) :
  PyStr.contains "." s = false -> base_name s = s.
Proof.
  intros E. unfold base_name. apply contains_rindex in E. now rewrite E.
Qed.

Lemma append_assoc (a b c : string) : (a ++ b) ++ c = a ++ b ++ c.
Proof. induction a as [|x a IH]; simpl; [reflexivity|now rewrite IH]. Qed.

Lemma append_nil_r (a : string) : a ++ "" = a.
Proof. induction a as [|x a IH]; simpl; [reflexivity|now rewrite IH]. Qed.

Lemma append_length (a b : string) :
  String.length (a ++ b) = String.length a + String.length b.
Proof. induction a as [|x a IH]; simpl; [reflexivity|now rewrite IH]. Qed.

(** ** The timestamp: [strftime] against the fixed layout *)

Lemma checked_below (test : nat -> bool) (bound n : nat) :
  forallb test (seq 0 bound) = true -> n < bound -> test n = true.
Proof.
  intros All Lt. rewrite forallb_forall in All. apply All, in_seq. lia.
Qed.

Section Padding.

Lemma agree_below (width : nat) (layout : nat -> string) (bound n : nat) :
  forallb (padding_agrees width layout) (seq 0 bound) = true ->
  n < bound ->
  PyStr.zfill width (PyStr.str_of_nat n) = layout n.
Proof.
  intros All Lt. rewrite forallb_forall in All.
  apply String.eqb_eq. apply (All n). apply in_seq. lia.
Qed.

Lemma zfill2_two_digits (n : nat) :
  n < 100 -> PyStr.zfill 2 (PyStr.str_of_nat n) = Datetime.two_digits n.
Proof. apply agree_below. vm_compute. reflexivity. Qed.

(** From year 1000 on the numeral of a year has its four digits. *)
Lemma year_four_digits (n : nat) :
  1000 <= n -> n < 10000 -> PyStr.str_of_nat n = Datetime.four_digits n.
Proof.
  intros Ge Lt.
  pose proof (checked_below
                (fun n => (n <? 1000)%nat
                          || String.eqb (PyStr.str_of_nat n)
                                        (Datetime.four_digits n))
                10000 n) as Chk.
  cbv beta in Chk. apply Nat.ltb_ge in Ge. rewrite Ge in Chk.
  apply String.eqb_eq, Chk; [vm_compute; reflexivity|exact Lt].
Qed.

End Padding.

Lemma valid_ranges (dt : Datetime.fields) :
  Datetime.valid dt = true ->
  Datetime.year dt < 10000 /\ Datetime.month dt < 100 /\
  Datetime.day dt < 100 /\ Datetime.hour dt < 100 /\
  Datetime.minute dt < 100 /\ Datetime.second dt < 100.
Proof.
  unfold Datetime.valid. intros V.
  repeat (apply andb_prop in V; destruct V as [V ?]).
  repeat match goal with
         | H : (_ <=? _)%nat = true |- _ => apply Nat.leb_le in H
         | H : (_ <? _)%nat = true |- _ => apply Nat.ltb_lt in H
         end.
  assert (Datetime.days_in_month (Datetime.year dt) (Datetime.month dt) <= 31).
  { unfold Datetime.days_in_month.
    destruct (Datetime.month dt) as [|[|[|[|[|[|[|[|[|[|[|[|[|m]]]]]]]]]]]]];
      try destruct (Datetime.is_leap _); lia. }
  assert (Datetime.MAXYEAR < 10000) by (vm_compute; lia).
  unfold Datetime.MAXYEAR in *. lia.
Qed.

(** A [datetime] is determined by its fields. *)
Lemma datetime_eq (a b : Datetime.datetime) :
  Datetime.parts a = Datetime.parts b -> a = b.
Proof.
  destruct a as [fa pa], b as [fb pb]. simpl. intros <-.
  f_equal. apply Eqdep_dec.UIP_dec. apply Bool.bool_dec.
Qed.

(** What the format string of the source makes of a clock reading: the
    numeral of the year, then the two-digit fields. *)
Lemma strftime_fields (dt : Datetime.datetime) :
  Datetime.strftime "%Y-%m-%d-%H%M%S" dt
  = PyStr.str_of_nat (Datetime.year (Datetime.parts dt)) ++ "-"
    ++ Datetime.two_digits (Datetime.month (Datetime.parts dt)) ++ "-"
    ++ Datetime.two_digits (Datetime.day (Datetime.parts dt)) ++ "-"
    ++ Datetime.two_digits (Datetime.hour (Datetime.parts dt))
    ++ Datetime.two_digits (Datetime.minute (Datetime.parts dt))
    ++ Datetime.two_digits (Datetime.second (Datetime.parts dt)).
Proof.
  pose proof (Datetime.in_range dt) as V.
  destruct (valid_ranges _ V) as (Y & Mo & D & H & Mi & S).
  rewrite <- (zfill2_two_digits _ Mo),
    <- (zfill2_two_digits _ D), <- (zfill2_two_digits _ H),
    <- (zfill2_two_digits _ Mi), <- (zfill2_two_digits _ S).
  rewrite <- (append_nil_r (PyStr.zfill 2 (PyStr.str_of_nat (Datetime.second (Datetime.parts dt))))).
  reflexivity.
Qed.

(** From year 1000 on, the format string of the source produces exactly the
    layout [YYYY-MM-DD-HHMMSS]. *)
Lemma strftime_layout (dt : Datetime.datetime) :
  1000 <= Datetime.year (Datetime.parts dt) ->
  Datetime.strftime "%Y-%m-%d-%H%M%S" dt = Datetime.YYYY_MM_DD_HHMMSS dt.
Proof.
  intros Ge. rewrite strftime_fields. unfold Datetime.YYYY_MM_DD_HHMMSS.
  destruct (valid_ranges _ (Datetime.in_range dt)) as (Y & _).
  now rewrite (year_four_digits _ Ge Y).
Qed.

Lemma padded_fallback_from_1000 (inname : string) (now : Datetime.datetime) :
  1000 <= Datetime.year (Datetime.parts now) ->
  fallback_name inname now = padded_fallback_name inname now.
Proof.
  intros Ge. unfold fallback_name, padded_fallback_name.
  now rewrite (strftime_layout now Ge).
Qed.

Lemma layout_length (dt : Datetime.datetime) :
  String.length (Datetime.YYYY_MM_DD_HHMMSS dt) = 17.
Proof. reflexivity. Qed.

(** ** How a run in auto-generate mode unfolds *)

Lemma auto_mode_unfold (inname : string) (w : World) :
  infer_out_video_name None inname w =
  if fs_exists w (primary_name inname) then
    if fs_exists w (fallback_name inname (clock w)) then
      (Raised (NameError
                 ("Could not automatically generate a safe file name for "
                  ++ base_name inname)), w)
    else (Returned (fallback_name inname (clock w)), w)
  else (Returned (primary_name inname), w).
Proof.
  unfold primary_name, fallback_name.
  rewrite <- strip_extension_base_name.
  unfold infer_out_video_name, bind, Path_exists, datetime_now, ret, raise.
  destruct (fs_exists w (strip_extension inname ++ ".webm")); [|reflexivity].
  destruct (fs_exists w _); reflexivity.
Qed.

Lemma explicit_mode_unfold (outname inname : string) (w : World) :
  infer_out_video_name (Some outname) inname w =
  if String.eqb outname inname
  then (Raised (FileExistsError
                  "Output video must be different from the input video"), w)
  else (Returned outname, w).
Proof.
  unfold infer_out_video_name. destruct (String.eqb outname inname); reflexivity.
Qed.

(** The resolver hands the world back as it received it. *)
Lemma resolver_keeps_world (outname : option string) (inname : string)
      (w : World) :
  world_after (infer_out_video_name outname inname w) = w.
Proof.
  destruct outname as [o|].
  - rewrite explicit_mode_unfold. destruct (String.eqb o inname); reflexivity.
  - rewrite auto_mode_unfold.
    destruct (fs_exists w (primary_name inname)); [|reflexivity].
    destruct (fs_exists w (fallback_name inname (clock w))); reflexivity.
Qed.

Lemma same_snapshot_same_answers (outname : option string) (inname : string)
      (w1 w2 : World) :
  same_snapshot w1 w2 -> same_answers outname inname w1 w2.
Proof.
  intros [FS CL]. unfold same_answers. destruct outname as [o|]; [exact I|].
  split; [apply FS|]. intros _. split; [exact CL|].
  apply datetime_eq in CL. rewrite CL. apply FS.
Qed.

(** The outcome depends on the world only through what the run asks: the
    two candidate names, and the clock once the primary name is taken. *)
Lemma resolver_respects_answers (outname : option string) (inname : string)
      (w1 w2 : World) :
  same_answers outname inname w1 w2 ->
  result (infer_out_video_name outname inname w1) =
  result (infer_out_video_name outname inname w2).
Proof.
  unfold same_answers. destruct outname as [o|].
  - intros _. rewrite !explicit_mode_unfold.
    destruct (String.eqb o inname); reflexivity.
  - intros [P Rest]. rewrite !auto_mode_unfold, <- P.
    destruct (fs_exists w1 (primary_name inname)); [|reflexivity].
    destruct (Rest eq_refl) as [CL F]. apply datetime_eq in CL.
    rewrite <- F, <- CL.
    destruct (fs_exists w1 (fallback_name inname (clock w1))); reflexivity.
Qed.

(** The fallback name is never the input name: its base name is strictly
    longer than the input's. *)
Lemma fallback_differs_from_input (inname : string) (now : Datetime.datetime) :
  fallback_name inname now <> inname.
Proof.
  unfold fallback_name. intros E.
  set (stamped := base_name inname ++ "-trimshare-"
                  ++ Datetime.strftime "%Y-%m-%d-%H%M%S" now).
  assert (B : base_name inname = stamped).
  { rewrite <- E at 1.
    replace (base_name inname ++ "-trimshare-"
             ++ Datetime.strftime "%Y-%m-%d-%H%M%S" now ++ ".webm")
      with (stamped ++ "." ++ "webm")
      by (unfold stamped; now rewrite !append_assoc).
    apply base_name_last_segment. reflexivity. }
  unfold stamped in B.
  apply (f_equal String.length) in B.
  rewrite !append_length in B. cbn [String.length] in B. lia.
Qed.

(** ** Properties of the naming policy *)

(** C1.  Auto-generate mode, primary candidate free: the resolver returns
    [<stem>.webm].  The stem is the input name cut before its last dot:
    for an input [p.e] with no dot in [e] it is [p], earlier dots included,
    and an input without a dot is its own stem. *)
Theorem C1_primary_returned_when_free (inname : string) (w : World) :
  fs_exists w (primary_name inname) = false ->
  result (infer_out_video_name None inname w) = Returned (primary_name inname)
  /\ (forall p e, PyStr.contains "." e = false -> inname = p ++ "." ++ e ->
      primary_name inname = p ++ ".webm")
  /\ (PyStr.contains "." inname = false ->
      primary_name inname = inname ++ ".webm").
Proof.
  intros Free. split; [|split].
  - rewrite auto_mode_unfold, Free. reflexivity.
  - intros p e E ->. unfold primary_name.
    now rewrite base_name_last_segment.
  - intros E. unfold primary_name. now rewrite base_name_no_dot.
Qed.

Lemma C1_witness :
  fs_exists empty_world (primary_name "my.special.video.mp4") = false /\
  result (infer_out_video_name None "my.special.video.mp4" empty_world)
  = Returned "my.special.video.webm".
Proof.
  split; [reflexivity|].
  apply (C1_primary_returned_when_free "my.special.video.mp4" empty_world).
  reflexivity.
Defined.

(** With the primary candidate taken and the timestamped candidate free,
    the resolver returns the timestamped candidate, whatever the clock. *)
Lemma fallback_returned_when_primary_taken (inname : string) (w : World) :
  fs_exists w (primary_name inname) = true ->
  fs_exists w (fallback_name inname (clock w)) = false ->
  result (infer_out_video_name None inname w)
  = Returned (fallback_name inname (clock w)).
Proof.
  intros Taken Free. rewrite auto_mode_unfold, Taken, Free. reflexivity.
Qed.

(** C2, as the specification states it, fails: with the clock in the year
    999 the year is written [999], not [0999], so the name returned is not
    the one with the zero-padded layout. *)
Lemma C2_counterexample :
  ~ (forall (inname : string) (w : World),
        fs_exists w (primary_name inname) = true ->
        fs_exists w (padded_fallback_name inname (clock w)) = false ->
        result (infer_out_video_name None inname w)
        = Returned (padded_fallback_name inname (clock w))).
Proof.
  intros Claim.
  pose (w := {| fs_exists := fs_exists (touch_all ["myvideo.webm"] empty_world);
                clock := clock_of_999 |}).
  specialize (Claim "myvideo.mp4" w eq_refl eq_refl).
  assert (Code : result (infer_out_video_name None "myvideo.mp4" w)
                 = Returned "myvideo-trimshare-999-03-04-050607.webm")
    by reflexivity.
  rewrite Code in Claim. discriminate Claim.
Qed.

(** C2, amended.  Auto-generate mode, primary candidate taken, timestamped
    candidate free, the clock in the year 1000 or later: the resolver
    returns [<stem>-trimshare-<timestamp>.webm], the timestamp being the
    clock reading laid out as [YYYY-MM-DD-HHMMSS] with zero-padded fields. *)
Theorem C2_fallback_returned_with_padded_timestamp
        (inname : string) (w : World) :
  1000 <= Datetime.year (Datetime.parts (clock w)) ->
  fs_exists w (primary_name inname) = true ->
  fs_exists w (padded_fallback_name inname (clock w)) = false ->
  result (infer_out_video_name None inname w)
  = Returned (padded_fallback_name inname (clock w)).
Proof.
  intros Ge Taken Free.
  rewrite <- (padded_fallback_from_1000 inname (clock w) Ge) in *.
  now apply fallback_returned_when_primary_taken.
Qed.

Lemma C2_witness :
  let w := touch_all ["myvideo.webm"] empty_world in
  1000 <= Datetime.year (Datetime.parts (clock w)) /\
  fs_exists w (primary_name "myvideo.webm") = true /\
  fs_exists w (padded_fallback_name "myvideo.webm" (clock w)) = false /\
  result (infer_out_video_name None "myvideo.webm" w)
  = Returned "myvideo-trimshare-2001-01-01-010101.webm".
Proof.
  intros w.
  assert (Ge : 1000 <= Datetime.year (Datetime.parts (clock w)))
    by (vm_compute; lia).
  split; [exact Ge|]. split; [reflexivity|]. split; [reflexivity|].
  apply (C2_fallback_returned_with_padded_timestamp "myvideo.webm" w Ge);
    reflexivity.
Defined.



(** C4.  An explicit output name equal to the input name raises
    [FileExistsError] (the specification's NameCollision), whatever the file
    system and the clock. *)
Theorem C4_collision_when_explicit_equals_input
        (explicit inname : string) (w : World) :
  explicit = inname ->
  result (infer_out_video_name (Some explicit) inname w)
  = Raised (FileExistsError
              "Output video must be different from the input video").
Proof.
  intros ->. rewrite explicit_mode_unfold, String.eqb_refl. reflexivity.
Qed.

Lemma C4_witness :
  "myvideo.webm" = "myvideo.webm" /\
  result (infer_out_video_name (Some "myvideo.webm") "myvideo.webm" empty_world)
  = Raised (FileExistsError
              "Output video must be different from the input video").
Proof.
  split; [reflexivity|].
  apply (C4_collision_when_explicit_equals_input
           "myvideo.webm" "myvideo.webm" empty_world).
  reflexivity.
Defined.

(** C5.  An explicit output name different from the input name is returned
    unchanged in every world: no existence check and no clock reading takes
    part in the outcome. *)
Theorem C5_explicit_returned_unchanged
        (explicit inname : string) (w : World) :
  explicit <> inname ->
  result (infer_out_video_name (Some explicit) inname w) = Returned explicit.
Proof.
  intros Ne. rewrite explicit_mode_unfold.
  apply String.eqb_neq in Ne. rewrite Ne. reflexivity.
Qed.

Lemma C5_witness :
  "pwn3d.webm" <> "deep/as/heck/path/myvideo.mp4" /\
  result (infer_out_video_name (Some "pwn3d.webm")
            "deep/as/heck/path/myvideo.mp4"
            (touch_all ["pwn3d.webm"] empty_world))
  = Returned "pwn3d.webm".
Proof.
  split; [discriminate|].
  apply (C5_explicit_returned_unchanged "pwn3d.webm"
           "deep/as/heck/path/myvideo.mp4"
           (touch_all ["pwn3d.webm"] empty_world)).
  discriminate.
Defined.

(** C6, as the specification states it, fails: an input that ends in
    [.webm] and names no existing file is returned as it is. *)
Lemma C6_counterexample :
  ~ (forall (inname : string) (w : World) (r : string),
        result (infer_out_video_name None inname w) = Returned r ->
        r <> inname).
Proof.
  intros Claim.
  apply (Claim "myvideo.webm" empty_world "myvideo.webm"); reflexivity.
Qed.

(** C6, amended.  In auto-generate mode the returned name differs from the
    input name whenever the input names an existing file (what [main]
    checks before it calls the resolver) or does not end in [.webm]. *)
Theorem C6_auto_name_differs_from_input
        (inname : string) (w : World) (r : string) :
  fs_exists w inname = true \/ (forall s, inname <> s ++ ".webm") ->
  result (infer_out_video_name None inname w) = Returned r ->
  r <> inname.
Proof.
  intros Pre. rewrite auto_mode_unfold.
  destruct (fs_exists w (primary_name inname)) eqn:P.
  - destruct (fs_exists w (fallback_name inname (clock w))); [discriminate|].
    intros [= <-]. apply fallback_differs_from_input.
  - intros [= <-] E. destruct Pre as [Ex|NoWebm].
    + rewrite E in P. congruence.
    + apply (NoWebm (base_name inname)). symmetry. exact E.
Qed.

Lemma C6_witness :
  let w := touch_all ["myvideo.webm"] empty_world in
  (fs_exists w "myvideo.webm" = true \/
   (forall s, "myvideo.webm" <> s ++ ".webm")) /\
  result (infer_out_video_name None "myvideo.webm" w)
  = Returned "myvideo-trimshare-2001-01-01-010101.webm" /\
  "myvideo-trimshare-2001-01-01-010101.webm" <> "myvideo.webm".
Proof.
  intros w.
  assert (Pre : fs_exists w "myvideo.webm" = true \/
                (forall s, "myvideo.webm" <> s ++ ".webm"))
    by (left; reflexivity).
  split; [exact Pre|]. split; [reflexivity|].
  apply (C6_auto_name_differs_from_input "myvideo.webm" w
           "myvideo-trimshare-2001-01-01-010101.webm" Pre).
  reflexivity.
Defined.

(** C7.  The directory part of a nested input path should reach the returned
    name untouched, also when a directory name contains a dot.  On
    [my.dir/video], whose file name has no extension, the resolver cuts at
    the dot of the directory and returns [my.webm]: the directory [my.dir/]
    is lost. *)
Theorem C7_dotted_directory_is_cut :
  result (infer_out_video_name None "my.dir/video" empty_world)
  = Returned "my.webm".
Proof. reflexivity. Qed.

(** C8.  Whatever the arguments, the file system and the clock, and whatever
    the outcome (a name, [FileExistsError] or [NameError]), the world after
    the call is the world before it: the resolver only asks whether paths
    exist. *)
Theorem C8_world_unchanged (outname : option string) (inname : string)
        (w : World) :
  world_after (infer_out_video_name outname inname w) = w.
Proof. apply resolver_keeps_world. Qed.

(** C9.  The outcome is a function of the arguments and of what the run is
    told: the answers of the file system for the two candidate names and,
    once the primary name is taken, the clock reading.  Two worlds that
    agree on these give the same outcome, however else they differ; in
    particular two worlds with the same snapshot do.  And a second call made
    right after the first, on the world the first call left, gives the same
    outcome as the first. *)
Theorem C9_deterministic (outname : option string) (inname : string)
        (w w' : World) :
  same_snapshot w w' \/ same_answers outname inname w w' ->
  result (infer_out_video_name outname inname w) =
  result (infer_out_video_name outname inname w')
  /\
  (let first := infer_out_video_name outname inname w in
   let second := infer_out_video_name outname inname (world_after first) in
   result second = result first).
Proof.
  intros Same. split.
  - apply resolver_respects_answers.
    destruct Same as [Snap|Ans]; [|exact Ans].
    now apply same_snapshot_same_answers.
  - cbv zeta. now rewrite resolver_keeps_world.
Qed.

Lemma C9_witness :
  let w := touch_all ["a.webm"; "b.webm"] empty_world in
  let w' := touch_all ["b.webm"; "a.webm"] empty_world in
  same_snapshot w w' /\
  result (infer_out_video_name None "a.mp4" w) =
  result (infer_out_video_name None "a.mp4" w').
Proof.
  intros w w'.
  assert (Same : same_snapshot w w').
  { split; [|reflexivity]. intros p. simpl.
    destruct (String.eqb p "a.webm"), (String.eqb p "b.webm"); reflexivity. }
  split; [exact Same|].
  exact (proj1 (C9_deterministic None "a.mp4" w w' (or_introl Same))).
Defined.

(** C10.  Auto-generate mode, primary candidate free: the clock plays no
    part.  Two worlds with the same files and any two clock readings give
    the same name. *)
Theorem C10_clock_irrelevant_when_primary_free
        (inname : string) (w w' : World) :
  (forall p, fs_exists w p = fs_exists w' p) ->
  fs_exists w (primary_name inname) = false ->
  result (infer_out_video_name None inname w) =
  result (infer_out_video_name None inname w').
Proof.
  intros FS Free. rewrite !auto_mode_unfold, <- FS, Free. reflexivity.
Qed.

Lemma C10_witness :
  let later :=
    Datetime.mk_datetime (Datetime.mk_fields 2024 2 29 23 59 59) eq_refl in
  let w' := {| fs_exists := fs_exists empty_world; clock := later |} in
  (forall p, fs_exists empty_world p = fs_exists w' p) /\
  fs_exists empty_world (primary_name "myvideo.mp4") = false /\
  clock empty_world <> clock w' /\
  result (infer_out_video_name None "myvideo.mp4" empty_world) =
  result (infer_out_video_name None "myvideo.mp4" w').
Proof.
  intros later w'.
  split; [reflexivity|]. split; [reflexivity|]. split; [discriminate|].
  apply (C10_clock_irrelevant_when_primary_free "myvideo.mp4" empty_world w');
    reflexivity.
Defined.

(** ** Consequences for [main] and for nested paths *)


(** When the file name itself carries an extension, the directory part is
    kept, dots in directory names included. *)
Lemma directory_kept_when_file_has_extension
      (dir file ext : string) (w : World) :
  PyStr.contains "." ext = false ->
  fs_exists w (dir ++ "/" ++ file ++ ".webm") = false ->
  result (infer_out_video_name None (dir ++ "/" ++ file ++ "." ++ ext) w)
  = Returned (dir ++ "/" ++ file ++ ".webm").
Proof.
  intros E Free.
  assert (P : primary_name (dir ++ "/" ++ file ++ "." ++ ext)
              = dir ++ "/" ++ file ++ ".webm").
  { unfold primary_name.
    replace (dir ++ "/" ++ file ++ "." ++ ext)
      with ((dir ++ "/" ++ file) ++ "." ++ ext)
      by (now rewrite !append_assoc).
    rewrite (base_name_last_segment _ _ E). now rewrite !append_assoc. }
  rewrite auto_mode_unfold, P, Free. reflexivity.
Qed.

(** * Further properties of the resolver *)

(** ** Splitting and joining *)

Lemma join_split (sep : ascii) (s : string) :
  PyStr.join (String sep EmptyString) (PyStr.split sep s) = s.
Proof.
  unfold PyStr.join. induction s as [|a s' IH]; simpl; [reflexivity|].
  pose proof (split_nonempty sep s') as NE.
  destruct (PyStr.split sep s') as [|p r]; [contradiction|].
  destruct (Ascii.eqb_spec a sep) as [->|_].
  - rewrite <- IH. reflexivity.
  - rewrite <- IH. cbn [String.concat]. destruct r; reflexivity.
Qed.

Lemma split_pieces_clean (sep : ascii) (s : string) :
  Forall (fun piece => PyStr.contains sep piece = false) (PyStr.split sep s).
Proof.
  induction s as [|a s' IH]; simpl.
  - constructor; [reflexivity|constructor].
  - destruct (Ascii.eqb a sep) eqn:E.
    + constructor; [reflexivity|exact IH].
    + destruct (PyStr.split sep s') as [|p r].
      * constructor; [simpl; now rewrite E|constructor].
      * inversion IH as [|? ? Hp Hr]; subst.
        constructor; [simpl; now rewrite E|exact Hr].
Qed.

(** The last separator cuts a string into what [substring] keeps, the
    separator, and a rest without separator. *)
Lemma rindex_decompose (c : ascii) (s : string) (k : nat) :
  PyStr.rindex c s = Some k ->
  exists rest, PyStr.contains c rest = false /\
               s = String.substring 0 k s ++ String c rest.
Proof.
  revert k. induction s as [|a s' IH]; simpl; intros k; [discriminate|].
  destruct (PyStr.rindex c s') as [j|] eqn:R.
  - intros [= <-]. destruct (IH j eq_refl) as (rest & Clean & Eq).
    exists rest. split; [exact Clean|]. simpl. now rewrite <- Eq.
  - destruct (Ascii.eqb_spec a c) as [->|_]; [|discriminate].
    intros [= <-]. exists s'. split; [now apply contains_rindex|reflexivity].
Qed.

Lemma append_cancel_l (a x y : string) : a ++ x = a ++ y -> x = y.
Proof.
  induction a as [|c a IH]; simpl; [tauto|]. intros [= E]. now apply IH.
Qed.

Lemma append_cancel_same_length (a b c d : string) :
  String.length a = String.length b -> a ++ c = b ++ d -> a = b.
Proof.
  revert b. induction a as [|x a IH]; intros [|y b]; simpl;
    try discriminate; [reflexivity|].
  intros [= L] [= -> E]. f_equal. now apply IH.
Qed.

Lemma primary_differs_from_fallback (inname : string)
      (now : Datetime.datetime) :
  primary_name inname <> fallback_name inname now.
Proof.
  unfold primary_name, fallback_name. intros E.
  apply append_cancel_l in E. discriminate E.
Qed.

(** A name that auto-generate mode returns was reported absent. *)
Lemma auto_returned_name_is_free (inname : string) (w : World) (r : string) :
  result (infer_out_video_name None inname w) = Returned r ->
  fs_exists w r = false.
Proof.
  rewrite auto_mode_unfold.
  destruct (fs_exists w (primary_name inname)) eqn:P.
  - destruct (fs_exists w (fallback_name inname (clock w))) eqn:F;
      [discriminate|].
    now intros [= <-].
  - now intros [= <-].
Qed.

(** X1.  Auto-generate mode never hands out the name of a file that exists:
    whatever name it returns, the file system reported no file there. *)
Theorem X1_auto_name_is_free (inname : string) (w : World) (r : string) :
  result (infer_out_video_name None inname w) = Returned r ->
  fs_exists w r = false.
Proof. apply auto_returned_name_is_free. Qed.

Lemma X1_witness :
  let w := touch_all ["clip.mkv"; "clip.webm"] empty_world in
  result (infer_out_video_name None "clip.mkv" w)
  = Returned "clip-trimshare-2001-01-01-010101.webm" /\
  fs_exists w "clip-trimshare-2001-01-01-010101.webm" = false.
Proof.
  intros w. split; [reflexivity|].
  apply (X1_auto_name_is_free "clip.mkv" w). reflexivity.
Defined.

(** X2.  A [NameError] from the resolver means auto-generate mode with both
    candidates reported present: the exception is raised in no other
    situation. *)
Theorem X2_name_error_only_when_both_taken
        (outname : option string) (inname : string) (w : World)
        (msg : string) :
  result (infer_out_video_name outname inname w) = Raised (NameError msg) ->
  outname = None /\
  fs_exists w (strip_extension inname ++ ".webm") = true /\
  fs_exists w (strip_extension inname ++ "-trimshare-"
               ++ Datetime.strftime "%Y-%m-%d-%H%M%S" (clock w) ++ ".webm")
  = true.
Proof.
  rewrite strip_extension_base_name.
  fold (primary_name inname). fold (fallback_name inname (clock w)).
  destruct outname as [o|].
  - rewrite explicit_mode_unfold.
    destruct (String.eqb o inname); discriminate.
  - rewrite auto_mode_unfold.
    destruct (fs_exists w (primary_name inname)); [|discriminate].
    destruct (fs_exists w (fallback_name inname (clock w))); [|discriminate].
    intros _. repeat split.
Qed.

Lemma X2_witness :
  let w := touch_all ["stuff.webm";
                      "stuff-trimshare-2001-01-01-010101.webm"] empty_world in
  let msg := "Could not automatically generate a safe file name for stuff" in
  result (infer_out_video_name None "stuff.mkv" w) = Raised (NameError msg) /\
  fs_exists w "stuff.webm" = true /\
  fs_exists w "stuff-trimshare-2001-01-01-010101.webm" = true.
Proof.
  intros w msg.
  assert (R : result (infer_out_video_name None "stuff.mkv" w)
              = Raised (NameError msg)) by reflexivity.
  split; [exact R|].
  destruct (X2_name_error_only_when_both_taken None "stuff.mkv" w msg R)
    as (_ & P & F).
  split; [exact P|exact F].
Defined.

(** X3.  When the input name contains a dot, stripping removes exactly the
    last dot and the dot-free text after it: the input is the stem, a dot,
    and an extension without dot.  Nothing before the last dot is altered. *)
Theorem X3_strip_removes_last_segment (inname : string) :
  PyStr.contains "." inname = true ->
  exists ext, PyStr.contains "." ext = false /\
              inname = strip_extension inname ++ "." ++ ext.
Proof.
  intros C. rewrite strip_extension_base_name. unfold base_name.
  destruct (PyStr.rindex "." inname) as [k|] eqn:R.
  - exact (rindex_decompose "." inname k R).
  - apply contains_rindex in R. congruence.
Qed.

Lemma X3_witness :
  PyStr.contains "." "my.special.video.mp4" = true /\
  exists ext, PyStr.contains "." ext = false /\
              "my.special.video.mp4"
              = strip_extension "my.special.video.mp4" ++ "." ++ ext.
Proof.
  split; [reflexivity|].
  apply (X3_strip_removes_last_segment "my.special.video.mp4"). reflexivity.
Defined.

(** X4.  Splitting at a separator and joining with it gives the string
    back, and no piece of the split contains the separator. *)
Theorem X4_join_split_round_trip (sep : ascii) (s : string) :
  PyStr.join (String sep EmptyString) (PyStr.split sep s) = s /\
  Forall (fun piece => PyStr.contains sep piece = false) (PyStr.split sep s).
Proof. split; [apply join_split|apply split_pieces_clean]. Qed.

(** ** The timestamp *)

Lemma value2_two_digits (n : nat) :
  n < 100 -> value2 (Datetime.digit (n / 10)) (Datetime.digit n) = n.
Proof.
  intros Lt. apply Nat.eqb_eq.
  apply (checked_below
           (fun n => value2 (Datetime.digit (n / 10)) (Datetime.digit n) =? n)%nat
           100 n); [vm_compute; reflexivity|exact Lt].
Qed.

Lemma value4_four_digits (n : nat) :
  n < 10000 ->
  value4 (Datetime.digit (n / 1000)) (Datetime.digit (n / 100))
         (Datetime.digit (n / 10)) (Datetime.digit n) = n.
Proof.
  intros Lt. apply Nat.eqb_eq.
  apply (checked_below
           (fun n => value4 (Datetime.digit (n / 1000))
                       (Datetime.digit (n / 100))
                       (Datetime.digit (n / 10)) (Datetime.digit n) =? n)%nat
           10000 n); [vm_compute; reflexivity|exact Lt].
Qed.

Lemma digit_is_stamp_char (n : nat) : is_stamp_char (Datetime.digit n) = true.
Proof.
  unfold Datetime.digit.
  assert (Lt : n mod 10 < 10) by (apply Nat.mod_upper_bound; lia).
  destruct (n mod 10) as [|[|[|[|[|[|[|[|[|[|m]]]]]]]]]];
    try reflexivity; lia.
Qed.

(** A timestamp can be read back: it names the clock reading it came from. *)
Lemma read_layout (dt : Datetime.datetime) :
  read_timestamp (Datetime.YYYY_MM_DD_HHMMSS dt) = Some (Datetime.parts dt).
Proof.
  destruct (valid_ranges _ (Datetime.in_range dt)) as (Y & Mo & D & H & Mi & S).
  unfold Datetime.YYYY_MM_DD_HHMMSS, Datetime.four_digits, Datetime.two_digits.
  cbn [String.append]. unfold read_timestamp.
  rewrite (value4_four_digits _ Y), (value2_two_digits _ Mo),
    (value2_two_digits _ D), (value2_two_digits _ H),
    (value2_two_digits _ Mi), (value2_two_digits _ S).
  destruct (Datetime.parts dt); reflexivity.
Qed.

Lemma all_chars_app (ok : ascii -> bool) (a b : string) :
  all_chars ok (a ++ b) = all_chars ok a && all_chars ok b.
Proof.
  induction a as [|c a IH]; simpl; [reflexivity|].
  now rewrite IH, andb_assoc.
Qed.

Lemma year_numeral_digits (n : nat) :
  n < 10000 -> all_chars is_stamp_char (PyStr.str_of_nat n) = true.
Proof.
  apply (checked_below
           (fun n => all_chars is_stamp_char (PyStr.str_of_nat n)) 10000 n).
  vm_compute. reflexivity.
Qed.

Lemma str_of_nat_injective (n m : nat) :
  PyStr.str_of_nat n = PyStr.str_of_nat m -> n = m.
Proof.
  unfold PyStr.str_of_nat. intros E.
  apply (f_equal NilEmpty.uint_of_string) in E.
  rewrite !NilEmpty.usu in E. injection E as E.
  apply (f_equal Nat.of_uint) in E.
  now rewrite !DecimalNat.Unsigned.of_to in E.
Qed.

Lemma append_cancel_r (a b c : string) : a ++ c = b ++ c -> a = b.
Proof.
  intros E. apply (append_cancel_same_length a b c c); [|exact E].
  apply (f_equal String.length) in E. rewrite !append_length in E. lia.
Qed.

Lemma two_digits_injective (n m : nat) :
  n < 100 -> m < 100 -> Datetime.two_digits n = Datetime.two_digits m -> n = m.
Proof.
  intros Ln Lm E.
  assert (V : value2 (Datetime.digit (n / 10)) (Datetime.digit n)
              = value2 (Datetime.digit (m / 10)) (Datetime.digit m)).
  { unfold Datetime.two_digits in E. injection E as E1 E0.
    exact (f_equal2 value2 E1 E0). }
  now rewrite (value2_two_digits n Ln), (value2_two_digits m Lm) in V.
Qed.

(** The timestamp names the clock reading it came from, also when the year
    has fewer than four digits: the fields after the year have a fixed
    width, so equal timestamps have year numerals of equal length. *)
Lemma strftime_injective (a b : Datetime.datetime) :
  Datetime.strftime "%Y-%m-%d-%H%M%S" a = Datetime.strftime "%Y-%m-%d-%H%M%S" b ->
  Datetime.parts a = Datetime.parts b.
Proof.
  rewrite !strftime_fields.
  destruct (valid_ranges _ (Datetime.in_range a)) as (_ & Mo & D & H & Mi & S).
  destruct (valid_ranges _ (Datetime.in_range b))
    as (_ & Mo' & D' & H' & Mi' & S').
  destruct (Datetime.parts a) as [y mo d h mi s].
  destruct (Datetime.parts b) as [y' mo' d' h' mi' s'].
  cbn [Datetime.year Datetime.month Datetime.day Datetime.hour
       Datetime.minute Datetime.second] in *.
  intros E.
  assert (Y : PyStr.str_of_nat y = PyStr.str_of_nat y').
  { apply append_cancel_same_length in E; [exact E|].
    apply (f_equal String.length) in E. rewrite !append_length in E.
    cbn [String.length Datetime.two_digits] in E. lia. }
  rewrite Y in E. apply append_cancel_l in E.
  apply str_of_nat_injective in Y.
  apply (append_cancel_l "-") in E. apply append_cancel_same_length in E as Emo; [|reflexivity].
  rewrite Emo in E. apply append_cancel_l in E. apply (append_cancel_l "-") in E.
  apply append_cancel_same_length in E as Ed; [|reflexivity].
  rewrite Ed in E. apply append_cancel_l in E. apply (append_cancel_l "-") in E.
  apply append_cancel_same_length in E as Eh; [|reflexivity].
  rewrite Eh in E. apply append_cancel_l in E.
  apply append_cancel_same_length in E as Emi; [|reflexivity].
  rewrite Emi in E. apply append_cancel_l in E.
  apply two_digits_injective in Emo, Ed, Eh, Emi, E; try assumption.
  congruence.
Qed.

(** X5.  For every clock reading, the timestamp the resolver builds is made
    of decimal digits and hyphens only: it brings no path separator and no
    dot into the fallback name.  From the year 1000 on it is exactly 17
    characters long. *)
Theorem X5_timestamp_shape (now : Datetime.datetime) :
  all_chars is_stamp_char (Datetime.strftime "%Y-%m-%d-%H%M%S" now) = true /\
  (1000 <= Datetime.year (Datetime.parts now) ->
   String.length (Datetime.strftime "%Y-%m-%d-%H%M%S" now) = 17).
Proof.
  split.
  - rewrite strftime_fields, all_chars_app.
    destruct (valid_ranges _ (Datetime.in_range now)) as (Y & _).
    rewrite (year_numeral_digits _ Y).
    unfold Datetime.two_digits. cbn [String.append all_chars andb].
    rewrite !digit_is_stamp_char. reflexivity.
  - intros Ge. rewrite (strftime_layout now Ge). reflexivity.
Qed.

Lemma X5_witness :
  all_chars is_stamp_char (Datetime.strftime "%Y-%m-%d-%H%M%S" clock_of_999)
  = true /\
  1000 <= Datetime.year (Datetime.parts frozen_clock) /\
  String.length (Datetime.strftime "%Y-%m-%d-%H%M%S" frozen_clock) = 17.
Proof.
  split; [exact (proj1 (X5_timestamp_shape clock_of_999))|].
  assert (Ge : 1000 <= Datetime.year (Datetime.parts frozen_clock))
    by (vm_compute; lia).
  split; [exact Ge|].
  exact (proj2 (X5_timestamp_shape frozen_clock) Ge).
Defined.

(** X6.  Round trip, from the year 1000 on: reading the timestamp back field
    by field gives the clock reading it was formatted from. *)
Theorem X6_timestamp_round_trip (now : Datetime.datetime) :
  1000 <= Datetime.year (Datetime.parts now) ->
  read_timestamp (Datetime.strftime "%Y-%m-%d-%H%M%S" now)
  = Some (Datetime.parts now).
Proof. intros Ge. rewrite (strftime_layout now Ge). apply read_layout. Qed.

Lemma X6_witness :
  1000 <= Datetime.year (Datetime.parts frozen_clock) /\
  read_timestamp (Datetime.strftime "%Y-%m-%d-%H%M%S" frozen_clock)
  = Some (Datetime.mk_fields 2001 1 1 1 1 1).
Proof.
  assert (Ge : 1000 <= Datetime.year (Datetime.parts frozen_clock))
    by (vm_compute; lia).
  split; [exact Ge|].
  exact (X6_timestamp_round_trip frozen_clock Ge).
Defined.

(** X7.  Two runs for the same input whose clocks read different seconds,
    both finding the primary name taken, never return the same name. *)
Theorem X7_fallbacks_differ_across_seconds
        (inname : string) (w1 w2 : World) (r1 r2 : string) :
  fs_exists w1 (strip_extension inname ++ ".webm") = true ->
  fs_exists w2 (strip_extension inname ++ ".webm") = true ->
  Datetime.parts (clock w1) <> Datetime.parts (clock w2) ->
  result (infer_out_video_name None inname w1) = Returned r1 ->
  result (infer_out_video_name None inname w2) = Returned r2 ->
  r1 <> r2.
Proof.
  rewrite strip_extension_base_name. fold (primary_name inname).
  intros P1 P2 Diff. rewrite !auto_mode_unfold, P1, P2.
  destruct (fs_exists w1 (fallback_name inname (clock w1))); [discriminate|].
  destruct (fs_exists w2 (fallback_name inname (clock w2))); [discriminate|].
  intros [= <-] [= <-] E. apply Diff.
  unfold fallback_name in E.
  apply append_cancel_l in E. apply (append_cancel_l "-trimshare-") in E.
  apply append_cancel_r in E. now apply strftime_injective.
Qed.

Lemma X7_witness :
  let later :=
    Datetime.mk_datetime (Datetime.mk_fields 2001 1 1 1 1 2) eq_refl in
  let w1 := touch_all ["myvideo.webm"] empty_world in
  let w2 := {| fs_exists := fs_exists w1; clock := later |} in
  result (infer_out_video_name None "myvideo.mp4" w1)
  = Returned "myvideo-trimshare-2001-01-01-010101.webm" /\
  result (infer_out_video_name None "myvideo.mp4" w2)
  = Returned "myvideo-trimshare-2001-01-01-010102.webm" /\
  "myvideo-trimshare-2001-01-01-010101.webm"
  <> "myvideo-trimshare-2001-01-01-010102.webm".
Proof.
  intros later w1 w2. split; [reflexivity|]. split; [reflexivity|].
  apply (X7_fallbacks_differ_across_seconds "myvideo.mp4" w1 w2);
    [reflexivity|reflexivity|discriminate|reflexivity|reflexivity].
Defined.

(** ** Runs that follow one another *)

Lemma touch_exists (p q : string) (w : World) :
  fs_exists (world_after (Path_touch p w)) q
  = (String.eqb q p || fs_exists w q).
Proof. reflexivity. Qed.

Lemma touch_clock (p : string) (w : World) :
  clock (world_after (Path_touch p w)) = clock w.
Proof. reflexivity. Qed.

(** X8.  Three runs for the same input in the same second, each output
    written before the next run: the first gets the primary name, the second
    the timestamped name, the third fails with [NameError]. *)
Theorem X8_three_runs_in_one_second (inname : string) (w : World) :
  fs_exists w (strip_extension inname ++ ".webm") = false ->
  fs_exists w (strip_extension inname ++ "-trimshare-"
               ++ Datetime.strftime "%Y-%m-%d-%H%M%S" (clock w) ++ ".webm")
  = false ->
  exists r1 r2 msg,
    let w1 := world_after (Path_touch r1 w) in
    let w2 := world_after (Path_touch r2 w1) in
    result (infer_out_video_name None inname w) = Returned r1 /\
    result (infer_out_video_name None inname w1) = Returned r2 /\
    result (infer_out_video_name None inname w2) = Raised (NameError msg) /\
    r1 = strip_extension inname ++ ".webm" /\
    r2 = strip_extension inname ++ "-trimshare-"
         ++ Datetime.strftime "%Y-%m-%d-%H%M%S" (clock w) ++ ".webm".
Proof.
  rewrite strip_extension_base_name.
  fold (primary_name inname). fold (fallback_name inname (clock w)).
  intros P F.
  exists (primary_name inname), (fallback_name inname (clock w)).
  eexists. cbv zeta.
  rewrite !auto_mode_unfold, P.
  rewrite !touch_clock, !touch_exists, !String.eqb_refl, P, F.
  destruct (String.eqb_spec (fallback_name inname (clock w))
                            (primary_name inname)) as [E|_].
  { symmetry in E. now apply primary_differs_from_fallback in E. }
  rewrite Bool.orb_true_r. cbn [orb]. repeat split.
Qed.

Lemma X8_witness :
  exists r1 r2 msg,
    let w1 := world_after (Path_touch r1 empty_world) in
    let w2 := world_after (Path_touch r2 w1) in
    result (infer_out_video_name None "myvideo.mp4" empty_world) = Returned r1
    /\ result (infer_out_video_name None "myvideo.mp4" w1) = Returned r2
    /\ result (infer_out_video_name None "myvideo.mp4" w2)
       = Raised (NameError msg)
    /\ r1 = "myvideo.webm"
    /\ r2 = "myvideo-trimshare-2001-01-01-010101.webm".
Proof.
  apply (X8_three_runs_in_one_second "myvideo.mp4" empty_world); reflexivity.
Defined.

(** X9.  Once the name a run returned has been written, a later run for the
    same input never returns that name again, whatever else changed on the
    clock. *)
Theorem X9_written_name_not_returned_again
        (inname : string) (w : World) (r r' : string)
        (later : Datetime.datetime) :
  result (infer_out_video_name None inname w) = Returned r ->
  let w' := {| fs_exists := fs_exists (world_after (Path_touch r w));
               clock := later |} in
  result (infer_out_video_name None inname w') = Returned r' ->
  r' <> r.
Proof.
  intros _ w' R' ->.
  apply auto_returned_name_is_free in R'.
  unfold w' in R'. cbn [fs_exists] in R'.
  rewrite touch_exists, String.eqb_refl in R'. discriminate.
Qed.

Lemma X9_witness :
  let w' := {| fs_exists :=
                 fs_exists (world_after (Path_touch "myvideo.webm" empty_world));
               clock := frozen_clock |} in
  result (infer_out_video_name None "myvideo.mp4" empty_world)
  = Returned "myvideo.webm" /\
  result (infer_out_video_name None "myvideo.mp4" w')
  = Returned "myvideo-trimshare-2001-01-01-010101.webm" /\
  "myvideo-trimshare-2001-01-01-010101.webm" <> "myvideo.webm".
Proof.
  intros w'. split; [reflexivity|]. split; [reflexivity|].
  apply (X9_written_name_not_returned_again "myvideo.mp4" empty_world
           "myvideo.webm" "myvideo-trimshare-2001-01-01-010101.webm"
           frozen_clock); reflexivity.
Defined.

(** * The driver *)

Section Driver.

Variable run_process : list string -> World -> Z * World.

Lemma main_out_video_keeps_world (o : option string) (in_video : string)
      (w : World) :
  world_after (main_out_video o in_video w) = w.
Proof.
  unfold main_out_video, bind, Path_exists.
  destruct (fs_exists w in_video); simpl; [|reflexivity].
  apply resolver_keeps_world.
Qed.

(** How a run of [main] unfolds from the outcome of the name resolution. *)
Lemma main_unfold (a : Cli.args) (h : Host) :
  main run_process a h =
  match result (main_out_video (Cli.o a) (Cli.in_video a) (host_world h)) with
  | Raised e => (Raised e, h)
  | Returned out_video =>
      let (rc1, w1) := run_process (pass1 a) (host_world h) in
      if negb (Z.eqb rc1 0) then
        (Raised (SystemExit first_pass_failed),
         {| host_world := w1; launched := launched h ++ [pass1 a] |})
      else
        let (rc2, w2) := run_process (pass2 a out_video) w1 in
        (Returned tt,
         {| host_world := w2;
            launched := (launched h ++ [pass1 a]) ++ [pass2 a out_video] |})
  end.
Proof.
  pose proof (main_out_video_keeps_world (Cli.o a) (Cli.in_video a)
                (host_world h)) as Keep.
  unfold main, bind_p, lift, sp_run, ret_p, raise_p, result, world_after in *.
  destruct (main_out_video (Cli.o a) (Cli.in_video a) (host_world h))
    as [[out|e] w']; simpl in Keep; subst w'; cbn [fst].
  - cbn [host_world launched].
    destruct (run_process (pass1 a) (host_world h)) as [rc1 w1].
    destruct (negb (Z.eqb rc1 0)); [reflexivity|].
    cbn [host_world launched].
    destruct (run_process (pass2 a out) w1) as [rc2 w2]. reflexivity.
  - destruct h; reflexivity.
Qed.

Lemma main_out_video_past_guard (o : option string) (in_video : string)
      (w : World) :
  fs_exists w in_video = true ->
  main_out_video o in_video w = infer_out_video_name o in_video w.
Proof.
  intros Ex. unfold main_out_video, bind, Path_exists. now rewrite Ex.
Qed.


(** X10.  When the input video does not exist, [main] stops with
    [SystemExit] naming it: no encoder process is launched and the machine
    is left as it was. *)
Theorem X10_main_stops_on_missing_input (a : Cli.args) (h : Host) :
  fs_exists (host_world h) (Cli.in_video a) = false ->
  main run_process a h
  = (Raised (SystemExit ("No file called " ++ Cli.in_video a)), h).
Proof.
  intros Missing. rewrite main_unfold.
  unfold main_out_video, bind, Path_exists. rewrite Missing. reflexivity.
Qed.

(** X11.  When the output name cannot be resolved (explicit name equal to
    the input, or both generated names taken), [main] ends with the
    resolver's exception before any encoder process is launched. *)
Theorem X11_main_stops_on_unresolved_name
        (a : Cli.args) (h : Host) (e : exn) :
  fs_exists (host_world h) (Cli.in_video a) = true ->
  result (infer_out_video_name (Cli.o a) (Cli.in_video a) (host_world h))
  = Raised e ->
  main run_process a h = (Raised e, h).
Proof.
  intros Ex Fail. rewrite main_unfold, (main_out_video_past_guard _ _ _ Ex).
  now rewrite Fail.
Qed.

(** X12.  When the first pass ends with a return code other than 0, [main]
    stops with [SystemExit]: the first pass is the only process launched,
    the second pass never starts. *)
Theorem X12_main_stops_after_failed_first_pass
        (a : Cli.args) (h : Host) (out_video : string) :
  fs_exists (host_world h) (Cli.in_video a) = true ->
  result (infer_out_video_name (Cli.o a) (Cli.in_video a) (host_world h))
  = Returned out_video ->
  fst (run_process (pass1 a) (host_world h)) <> 0%Z ->
  host_result (main run_process a h) = Raised (SystemExit first_pass_failed) /\
  launched (host_after (main run_process a h))
  = (launched h ++ [pass1 a])%list.
Proof.
  intros Ex Res Rc. rewrite main_unfold, (main_out_video_past_guard _ _ _ Ex).
  rewrite Res. destruct (run_process (pass1 a) (host_world h)) as [rc1 w1].
  simpl in Rc. apply Z.eqb_neq in Rc. rewrite Rc. split; reflexivity.
Qed.

(** X13.  When the first pass ends with return code 0, [main] launches the
    first pass and then the second pass on the resolved output name, in
    that order and nothing else, and returns normally whatever the return
    code of the second pass. *)
Theorem X13_main_runs_both_passes
        (a : Cli.args) (h : Host) (out_video : string) :
  fs_exists (host_world h) (Cli.in_video a) = true ->
  result (infer_out_video_name (Cli.o a) (Cli.in_video a) (host_world h))
  = Returned out_video ->
  fst (run_process (pass1 a) (host_world h)) = 0%Z ->
  host_result (main run_process a h) = Returned tt /\
  launched (host_after (main run_process a h))
  = (launched h ++ [pass1 a; pass2 a out_video])%list /\
  host_world (host_after (main run_process a h))
  = snd (run_process (pass2 a out_video)
           (snd (run_process (pass1 a) (host_world h)))).
Proof.
  intros Ex Res Rc. rewrite main_unfold, (main_out_video_past_guard _ _ _ Ex).
  rewrite Res. destruct (run_process (pass1 a) (host_world h)) as [rc1 w1].
  simpl in Rc. subst rc1. cbn [Z.eqb negb snd].
  destruct (run_process (pass2 a out_video) w1) as [rc2 w2].
  rewrite <- app_assoc. repeat split.
Qed.


End Driver.

Lemma X10_witness :
  let a := example_args None in
  let h := fresh_host empty_world in
  fs_exists (host_world h) (Cli.in_video a) = false /\
  main (encoder_returning 0) a h
  = (Raised (SystemExit "No file called example.mkv"), h).
Proof.
  intros a h. split; [reflexivity|].
  apply (X10_main_stops_on_missing_input (encoder_returning 0) a h).
  reflexivity.
Defined.

Lemma X11_witness :
  let a := example_args (Some "example.mkv") in
  let h := fresh_host (touch_all ["example.mkv"] empty_world) in
  let e := FileExistsError
             "Output video must be different from the input video" in
  fs_exists (host_world h) (Cli.in_video a) = true /\
  result (infer_out_video_name (Cli.o a) (Cli.in_video a) (host_world h))
  = Raised e /\
  main (encoder_returning 0) a h = (Raised e, h).
Proof.
  intros a h e. split; [reflexivity|]. split; [reflexivity|].
  apply (X11_main_stops_on_unresolved_name (encoder_returning 0) a h e);
    reflexivity.
Defined.

Lemma X12_witness :
  let a := example_args None in
  let h := fresh_host (touch_all ["example.mkv"] empty_world) in
  fs_exists (host_world h) (Cli.in_video a) = true /\
  result (infer_out_video_name (Cli.o a) (Cli.in_video a) (host_world h))
  = Returned "example.webm" /\
  fst (encoder_returning 1 (pass1 a) (host_world h)) <> 0%Z /\
  host_result (main (encoder_returning 1) a h)
  = Raised (SystemExit first_pass_failed) /\
  launched (host_after (main (encoder_returning 1) a h))
  = [["ffmpeg"; "-i"; "example.mkv"; "-ss"; "0:23"; "-to"; "0:49";
      "-c:v"; "libvpx-vp9"; "-b:v"; "0"; "-crf"; "50";
      "-row-mt"; "1"; "-pass"; "1"; "-an"; "-f"; "null"; "/dev/null"]].
Proof.
  intros a h. split; [reflexivity|]. split; [reflexivity|].
  split; [discriminate|].
  apply (X12_main_stops_after_failed_first_pass (encoder_returning 1) a h
           "example.webm"); [reflexivity|reflexivity|discriminate].
Defined.

Lemma X13_witness :
  let a := example_args None in
  let h := fresh_host (touch_all ["example.mkv"] empty_world) in
  fs_exists (host_world h) (Cli.in_video a) = true /\
  result (infer_out_video_name (Cli.o a) (Cli.in_video a) (host_world h))
  = Returned "example.webm" /\
  fst (encoder_returning 0 (pass1 a) (host_world h)) = 0%Z /\
  host_result (main (encoder_returning 0) a h) = Returned tt /\
  launched (host_after (main (encoder_returning 0) a h))
  = [["ffmpeg"; "-i"; "example.mkv"; "-ss"; "0:23"; "-to"; "0:49";
      "-c:v"; "libvpx-vp9"; "-b:v"; "0"; "-crf"; "50";
      "-row-mt"; "1"; "-pass"; "1"; "-an"; "-f"; "null"; "/dev/null"];
     ["ffmpeg"; "-i"; "example.mkv"; "-ss"; "0:23"; "-to"; "0:49";
      "-c:v"; "libvpx-vp9"; "-b:v"; "0"; "-crf"; "50";
      "-row-mt"; "1"; "-pass"; "2"; "example.webm"]].
Proof.
  intros a h. split; [reflexivity|]. split; [reflexivity|].
  split; [reflexivity|].
  destruct (X13_main_runs_both_passes (encoder_returning 0) a h
              "example.webm") as (R & L & _);
    [reflexivity|reflexivity|reflexivity|].
  split; [exact R|exact L].
Defined.
